(** * TextColor: a tagged colour value and its resolution against a palette

    Shallow embedding of [src/buffer/out/TextColor.cpp].  A [TextColor] is a
    tag byte and three payload bytes; [GetColor] turns it into a COLORREF
    given a colour table, a default colour and the "bold is bright" flag.
    The guards written with FAIL_FAST_IF end the process; reading a
    [std::basic_string_view] at a position that is not below its size is
    undefined behaviour.  Both are kept apart in the result type. *)

From Stdlib Require Import ZArith List Bool Lia.
Import ListNotations.
Local Open Scope Z_scope.

(** ** Machine types *)

Definition BYTE := Z.
Definition COLORREF := Z.

Definition is_BYTE (b : Z) : Prop := 0 <= b <= 255.

(** A colour that uses eight bits per channel and nothing else of the DWORD. *)
Definition is_rgb24 (c : Z) : Prop := 0 <= c < 2 ^ 24.

(** Value conversions to the unsigned types that occur in the source. *)
Definition to_BYTE (z : Z) : BYTE := Z.land z 255.
Definition to_WORD (z : Z) : Z := Z.land z 65535.
Definition to_DWORD (z : Z) : Z := Z.land z 4294967295.
Definition to_size_t (z : Z) : Z := z mod 2 ^ 64.

(** The packing and unpacking macros [RGB], [GetRValue], [GetGValue] and
    [GetBValue] come with the platform headers behind precomp.h and are not
    under src/.  The spec calls them the "concrete-color
    constructor/decomposition pair (pack/unpack red, green, blue components
    from and to a platform color representation)"; the layout is the
    platform's: red in bits 0-7, green in bits 8-15, blue in bits 16-23 of
    a 32-bit COLORREF. *)

(** Modelled from the spec: the macro [LOBYTE] is not under src/; it keeps
    the low eight bits of its argument. *)
Definition LOBYTE (w : Z) : BYTE := to_BYTE w.

(** Modelled from the spec: the macro [GetRValue] is not under src/; the
    red component is the low byte of the colour. *)
Definition GetRValue (rgb : COLORREF) : BYTE := LOBYTE rgb.

(** Modelled from the spec: the macro [GetGValue] is not under src/; the
    green component is the second byte of the colour. *)
Definition GetGValue (rgb : COLORREF) : BYTE := LOBYTE (Z.shiftr (to_WORD rgb) 8).

(** Modelled from the spec: the macro [GetBValue] is not under src/; the
    blue component is the third byte of the colour. *)
Definition GetBValue (rgb : COLORREF) : BYTE := LOBYTE (Z.shiftr rgb 16).

(** Modelled from the spec: the macro [RGB] is not under src/; it packs
    three bytes into a COLORREF, red lowest. *)
Definition RGB (r g b : Z) : COLORREF :=
  to_DWORD (Z.lor (Z.lor (to_BYTE r) (Z.shiftl (to_WORD (to_BYTE g)) 8))
                  (Z.shiftl (to_DWORD (to_BYTE b)) 16)).

(** ** The tag *)

Module ColorType.

(** Modelled from the spec: the enumeration [ColorType] is declared in
    TextColor.h, which is not under src/.  The spec gives "a discriminant
    tag in {Default, RGB, Indexed}"; the enumerators carry the names the
    source uses. *)
Inductive t : Type :=
  | IsIndex
  | IsDefault
  | IsRgb.

End ColorType.

(** Modelled from the spec: [static_cast<BYTE>(ColorType::...)]; the values
    of the enumerators are in TextColor.h, which is not under src/.  They
    are numbered in declaration order; the source needs them distinct. *)
Definition static_cast_BYTE (t : ColorType.t) : BYTE :=
  match t with
  | ColorType.IsIndex => 0
  | ColorType.IsDefault => 1
  | ColorType.IsRgb => 2
  end.

(** ** The value *)

(** Modelled from the spec: the data members are declared in TextColor.h,
    which is not under src/.  The spec gives "4 bytes: 1 tag + 3 payload
    bytes, with RGB reusing the 3 payload bytes and Indexed reusing 1 of
    them": [_index] shares its byte with [_red]. *)
Record TextColor : Type := mkTextColor {
  _meta : BYTE;
  _red : BYTE;
  _green : BYTE;
  _blue : BYTE
}.

(** Modelled from the spec: the member [_index], declared in TextColor.h
    (not under src/), occupies the byte of [_red]. *)
Definition _index (this : TextColor) : BYTE := _red this.

Definition set_meta (this : TextColor) (v : BYTE) : TextColor :=
  mkTextColor v (_red this) (_green this) (_blue this).
Definition set_red (this : TextColor) (v : BYTE) : TextColor :=
  mkTextColor (_meta this) v (_green this) (_blue this).
Definition set_green (this : TextColor) (v : BYTE) : TextColor :=
  mkTextColor (_meta this) (_red this) v (_blue this).
Definition set_blue (this : TextColor) (v : BYTE) : TextColor :=
  mkTextColor (_meta this) (_red this) (_green this) v.
Definition set_index (this : TextColor) (v : BYTE) : TextColor :=
  set_red this v.

(** Modelled from the spec: the constructors are in TextColor.h, which is
    not under src/.  The spec gives "default-constructed as Default"; the
    payload starts zeroed. *)
Definition TextColor_default : TextColor :=
  mkTextColor (static_cast_BYTE ColorType.IsDefault) 0 0 0.

(** ** Queries *)

Definition IsDefault (this : TextColor) : bool :=
  _meta this =? static_cast_BYTE ColorType.IsDefault.

Definition IsRgb (this : TextColor) : bool :=
  _meta this =? static_cast_BYTE ColorType.IsRgb.

Definition IsLegacy (this : TextColor) : bool :=
  negb (IsDefault this || IsRgb this).

(** ** Setters *)

Definition SetColor (this : TextColor) (rgbColor : COLORREF) : TextColor :=
  let this := set_meta this (static_cast_BYTE ColorType.IsRgb) in
  let this := set_red this (GetRValue rgbColor) in
  let this := set_green this (GetGValue rgbColor) in
  set_blue this (GetBValue rgbColor).

Definition SetIndex (this : TextColor) (index : BYTE) : TextColor :=
  let this := set_meta this (static_cast_BYTE ColorType.IsIndex) in
  set_index this index.

Definition SetDefault (this : TextColor) : TextColor :=
  set_meta this (static_cast_BYTE ColorType.IsDefault).

(** ** Outcomes of a call that may end the process *)

(** The three FAIL_FAST_IF guards of [GetColor], in source order. *)
Inductive Guard : Type :=
  | TableShorterThanIndex    (* colorTable.size() < _index *)
  | TableShorterThan16       (* colorTable.size() < 16 *)
  | BrightPastTable.         (* (size_t)(_index + 8) > colorTable.size() *)

Inductive Outcome (A : Type) : Type :=
  | Returned (a : A)
  | FailFast (g : Guard)
  | ReadPastEnd (pos : Z).

Arguments Returned {A} a.
Arguments FailFast {A} g.
Arguments ReadPastEnd {A} pos.

Definition bind {A B : Type} (m : Outcome A) (k : A -> Outcome B) : Outcome B :=
  match m with
  | Returned a => k a
  | FailFast g => FailFast g
  | ReadPastEnd pos => ReadPastEnd pos
  end.

Notation "m ;; k" := (bind m (fun _ => k))
  (at level 61, right associativity).

Definition FAIL_FAST_IF (g : Guard) (condition : bool) : Outcome unit :=
  if condition then FailFast g else Returned tt.

(** ** The colour table: a [std::basic_string_view<COLORREF>] *)

Definition size (colorTable : list COLORREF) : Z :=
  Z.of_nat (length colorTable).

(** [colorTable[pos]]: the position is converted to [size_t]; nothing is
    checked, and a position that is not below the size reads past the end. *)
Definition at_ (colorTable : list COLORREF) (pos : Z) : Outcome COLORREF :=
  match nth_error colorTable (Z.to_nat (to_size_t pos)) with
  | Some c => Returned c
  | None => ReadPastEnd (to_size_t pos)
  end.

(** ** Resolution *)

Definition _GetRGB (this : TextColor) : COLORREF :=
  RGB (_red this) (_green this) (_blue this).

Definition GetColor (this : TextColor) (colorTable : list COLORREF)
    (defaultColor : COLORREF) (brighten : bool) : Outcome COLORREF :=
  if IsDefault this then
    Returned defaultColor
  else if IsRgb this then
    Returned (_GetRGB this)
  else
    FAIL_FAST_IF TableShorterThanIndex
      (size colorTable <? to_size_t (_index this)) ;;
    if brighten && (_index this <? 8) then
      FAIL_FAST_IF TableShorterThan16 (size colorTable <? 16) ;;
      FAIL_FAST_IF BrightPastTable
        (to_size_t (_index this + 8) >? size colorTable) ;;
      at_ colorTable (_index this + 8)
    else
      at_ colorTable (_index this).

(** ** Reachable values *)

(** A value is reachable when it results from the default-constructed one by
    calls of the three setters, with arguments of the parameter types. *)
Inductive reachable : TextColor -> Prop :=
  | reach_default : reachable TextColor_default
  | reach_SetDefault this :
      reachable this -> reachable (SetDefault this)
  | reach_SetColor this rgbColor :
      reachable this -> 0 <= rgbColor < 2 ^ 32 ->
      reachable (SetColor this rgbColor)
  | reach_SetIndex this index :
      reachable this -> is_BYTE index ->
      reachable (SetIndex this index).

(** What every reachable value satisfies. *)
Definition well_formed (this : TextColor) : Prop :=
  (_meta this = static_cast_BYTE ColorType.IsIndex
   \/ _meta this = static_cast_BYTE ColorType.IsDefault
   \/ _meta this = static_cast_BYTE ColorType.IsRgb)
  /\ is_BYTE (_red this) /\ is_BYTE (_green this) /\ is_BYTE (_blue this).

(** A standard table of sixteen entries and one of 256, for the examples. *)
Definition table16 : list COLORREF :=
  [0; 128; 32768; 32896; 8388608; 8388736; 8421376; 12632256;
   8421504; 255; 65280; 65535; 16711680; 16711935; 16776960; 16777215].

Definition table256 : list COLORREF :=
  map Z.of_nat (seq 0 256).

(** ** Proof automation *)

(** Bit-level normalisation: every [Z.testbit] of a mask, of a shift or at a
    negative position is evaluated, every comparison of positions decided. *)
Ltac decide_ltb :=
  repeat match goal with
  | |- context [?a <? ?b] =>
      first [ replace (a <? b) with true by (symmetry; apply Z.ltb_lt; lia)
            | replace (a <? b) with false by (symmetry; apply Z.ltb_ge; lia) ]
  end.

Ltac eval_bits :=
  repeat first
    [ rewrite Z.land_spec
    | rewrite Z.lor_spec
    | match goal with
      | |- context [Z.testbit ?a ?m] =>
          rewrite (Z.testbit_neg_r a m) by lia
      | |- context [Z.testbit (Z.ones ?k) ?m] =>
          rewrite (Z.testbit_ones_nonneg k m) by lia
      | |- context [Z.testbit (Z.shiftl ?a ?k) ?m] =>
          rewrite (Z.shiftl_spec a k m) by lia
      | |- context [Z.testbit (Z.shiftr ?a ?k) ?m] =>
          rewrite (Z.shiftr_spec a k m) by lia
      end ];
  decide_ltb; rewrite ?Z.sub_add.

(** * Properties *)

(** ** Conversions and bit layout *)

Lemma to_size_t_small (z : Z) : 0 <= z < 2 ^ 64 -> to_size_t z = z.
Proof. intros H. unfold to_size_t. now apply Z.mod_small. Qed.

Lemma to_size_t_BYTE (b : Z) : is_BYTE b -> to_size_t b = b.
Proof. unfold is_BYTE. intros H. apply to_size_t_small. lia. Qed.

Lemma to_size_t_BYTE_plus_8 (b : Z) : is_BYTE b -> to_size_t (b + 8) = b + 8.
Proof. unfold is_BYTE. intros H. apply to_size_t_small. lia. Qed.

Lemma to_BYTE_ones (z : Z) : to_BYTE z = Z.land z (Z.ones 8).
Proof. reflexivity. Qed.

Lemma to_WORD_ones (z : Z) : to_WORD z = Z.land z (Z.ones 16).
Proof. reflexivity. Qed.

Lemma to_DWORD_ones (z : Z) : to_DWORD z = Z.land z (Z.ones 32).
Proof. reflexivity. Qed.

Lemma to_BYTE_range (z : Z) : is_BYTE (to_BYTE z).
Proof.
  unfold is_BYTE. rewrite to_BYTE_ones, Z.land_ones by lia.
  pose proof (Z.mod_pos_bound z (2 ^ 8) ltac:(lia)). lia.
Qed.

Lemma rgb24_high_bits (c n : Z) : is_rgb24 c -> 24 <= n -> Z.testbit c n = false.
Proof.
  unfold is_rgb24. intros Hc Hn.
  rewrite <- (Z.mod_small c (2 ^ 24)) by lia.
  apply Z.mod_pow2_bits_high. lia.
Qed.

(** Taking a 24-bit colour apart and packing it again gives it back. *)
Lemma RGB_of_components (c : COLORREF) :
  is_rgb24 c -> RGB (GetRValue c) (GetGValue c) (GetBValue c) = c.
Proof.
  intros Hc. unfold RGB, GetRValue, GetGValue, GetBValue, LOBYTE.
  rewrite !to_DWORD_ones, !to_WORD_ones, !to_BYTE_ones.
  apply Z.bits_inj'. intros n Hn.
  destruct (Z.ltb_spec n 8) as [H8 | H8];
    [ | destruct (Z.ltb_spec n 16) as [H16 | H16];
        [ | destruct (Z.ltb_spec n 24) as [H24 | H24] ] ];
    eval_bits.
  - destruct (Z.testbit c n); reflexivity.
  - destruct (Z.testbit c n); reflexivity.
  - destruct (Z.testbit c n); reflexivity.
  - rewrite (rgb24_high_bits c n Hc H24). reflexivity.
Qed.

(** ** Reading the colour table *)

Lemma size_nonneg (colorTable : list COLORREF) : 0 <= size colorTable.
Proof. unfold size. lia. Qed.

Lemma at_inside (colorTable : list COLORREF) (pos : Z) :
  0 <= pos < 2 ^ 64 -> pos < size colorTable ->
  exists c, nth_error colorTable (Z.to_nat pos) = Some c
            /\ at_ colorTable pos = Returned c.
Proof.
  intros Hpos Hlt. unfold at_. rewrite to_size_t_small by assumption.
  destruct (nth_error colorTable (Z.to_nat pos)) as [c | ] eqn:E.
  - exists c. split; reflexivity.
  - apply nth_error_None in E. unfold size in Hlt. lia.
Qed.

Lemma at_outside (colorTable : list COLORREF) (pos : Z) :
  0 <= pos < 2 ^ 64 -> size colorTable <= pos ->
  at_ colorTable pos = ReadPastEnd pos.
Proof.
  intros Hpos Hge. unfold at_. rewrite to_size_t_small by assumption.
  destruct (nth_error colorTable (Z.to_nat pos)) as [c | ] eqn:E.
  - assert (nth_error colorTable (Z.to_nat pos) <> None) as Hsome
      by (rewrite E; discriminate).
    apply nth_error_Some in Hsome. unfold size in Hge. lia.
  - reflexivity.
Qed.

(** ** The tag after each setter *)

Lemma IsLegacy_inv (this : TextColor) :
  IsLegacy this = true -> IsDefault this = false /\ IsRgb this = false.
Proof.
  unfold IsLegacy. intros H. apply negb_true_iff in H.
  now apply orb_false_iff in H.
Qed.

Lemma IsLegacy_SetIndex (this : TextColor) (index : BYTE) :
  IsLegacy (SetIndex this index) = true.
Proof. reflexivity. Qed.

Lemma IsDefault_SetDefault (this : TextColor) :
  IsDefault (SetDefault this) = true.
Proof. reflexivity. Qed.

Lemma IsRgb_SetColor (this : TextColor) (rgbColor : COLORREF) :
  IsDefault (SetColor this rgbColor) = false
  /\ IsRgb (SetColor this rgbColor) = true.
Proof. split; reflexivity. Qed.

Lemma index_SetIndex (this : TextColor) (index : BYTE) :
  _index (SetIndex this index) = index.
Proof. reflexivity. Qed.

(** ** The indexed branch of [GetColor] *)

(** In the indexed state the first guard lets everything through that is
    not shorter than the index, a table of exactly that length included. *)
Lemma GetColor_indexed_plain (this : TextColor) (colorTable : list COLORREF)
    (defaultColor : COLORREF) (brighten : bool) :
  IsLegacy this = true -> is_BYTE (_index this) ->
  brighten && (_index this <? 8) = false ->
  GetColor this colorTable defaultColor brighten =
    if size colorTable <? _index this
    then FailFast TableShorterThanIndex
    else at_ colorTable (_index this).
Proof.
  intros Hleg Hbyte Hbr. apply IsLegacy_inv in Hleg as [Hd Hr].
  unfold GetColor. rewrite Hd, Hr, Hbr, (to_size_t_BYTE _ Hbyte).
  unfold FAIL_FAST_IF, bind.
  now destruct (size colorTable <? _index this).
Qed.

Lemma GetColor_indexed_bright (this : TextColor) (colorTable : list COLORREF)
    (defaultColor : COLORREF) :
  IsLegacy this = true -> 0 <= _index this < 8 ->
  GetColor this colorTable defaultColor true =
    if size colorTable <? _index this
    then FailFast TableShorterThanIndex
    else if size colorTable <? 16
    then FailFast TableShorterThan16
    else at_ colorTable (_index this + 8).
Proof.
  intros Hleg Hidx. apply IsLegacy_inv in Hleg as [Hd Hr].
  assert (is_BYTE (_index this)) as Hbyte by (unfold is_BYTE; lia).
  unfold GetColor.
  rewrite Hd, Hr, (to_size_t_BYTE _ Hbyte), (to_size_t_BYTE_plus_8 _ Hbyte).
  replace (_index this <? 8) with true by (symmetry; apply Z.ltb_lt; lia).
  unfold FAIL_FAST_IF, bind. cbn [andb].
  destruct (Z.ltb_spec (size colorTable) (_index this)) as [H1 | H1];
    [reflexivity | ].
  destruct (Z.ltb_spec (size colorTable) 16) as [H2 | H2]; [reflexivity | ].
  replace (_index this + 8 >? size colorTable) with false; [reflexivity | ].
  symmetry. rewrite Z.gtb_ltb. apply Z.ltb_ge. lia.
Qed.

(** ** The invariant of reachable values *)

Lemma well_formed_default : well_formed TextColor_default.
Proof. unfold well_formed, is_BYTE. cbn. intuition lia. Qed.

Lemma well_formed_SetDefault (this : TextColor) :
  well_formed this -> well_formed (SetDefault this).
Proof. unfold well_formed. cbn. intuition. Qed.

Lemma well_formed_SetColor (this : TextColor) (rgbColor : COLORREF) :
  well_formed this -> well_formed (SetColor this rgbColor).
Proof.
  unfold well_formed. cbn. intros _.
  unfold GetRValue, GetGValue, GetBValue, LOBYTE.
  repeat split; try apply to_BYTE_range. now right; right.
Qed.

Lemma well_formed_SetIndex (this : TextColor) (index : BYTE) :
  is_BYTE index -> well_formed this -> well_formed (SetIndex this index).
Proof. unfold well_formed. cbn. intuition. Qed.

Lemma reachable_well_formed (this : TextColor) :
  reachable this -> well_formed this.
Proof.
  induction 1 as [ | this _ IH | this rgbColor _ IH _ | this index _ IH Hb ].
  - exact well_formed_default.
  - now apply well_formed_SetDefault.
  - now apply well_formed_SetColor.
  - now apply well_formed_SetIndex.
Qed.

Lemma well_formed_index (this : TextColor) :
  well_formed this -> is_BYTE (_index this).
Proof. unfold well_formed, _index. tauto. Qed.

(** For a well-formed value, being legacy is having the index tag. *)
Lemma well_formed_IsLegacy (this : TextColor) :
  well_formed this ->
  (IsLegacy this = true <-> _meta this = static_cast_BYTE ColorType.IsIndex).
Proof.
  intros [[H | [H | H]] _]; unfold IsLegacy, IsDefault, IsRgb; rewrite H;
    cbn; split; (reflexivity || discriminate).
Qed.

Lemma at_never_fails_fast (colorTable : list COLORREF) (pos : Z) (g : Guard) :
  at_ colorTable pos <> FailFast g.
Proof.
  unfold at_. destruct (nth_error colorTable _); discriminate.
Qed.

(** ** The scenarios of the specification, run on the model *)

Example scenario_index_3_brightened :
  GetColor (SetIndex TextColor_default 3) table16 0 true
  = Returned (nth 11 table16 0).
Proof. reflexivity. Qed.

Example scenario_index_12_brightened :
  GetColor (SetIndex TextColor_default 12) table16 0 true
  = Returned (nth 12 table16 0).
Proof. reflexivity. Qed.

Example scenario_index_200_brightened :
  GetColor (SetIndex TextColor_default 200) table256 0 true
  = Returned (nth 200 table256 0).
Proof. vm_compute. reflexivity. Qed.

(** The first guard fires from one entry further on only. *)
Example index_17_table_of_16 :
  GetColor (SetIndex TextColor_default 17) table16 0 false
  = FailFast TableShorterThanIndex.
Proof. reflexivity. Qed.

Example index_0_empty_table :
  GetColor (SetIndex TextColor_default 0) [] 0 false = ReadPastEnd 0.
Proof. reflexivity. Qed.

(** A COLORREF with bits above the three channels loses them. *)
Example SetColor_drops_high_byte :
  GetColor (SetColor TextColor_default 16777217) [] 0 false = Returned 1.
Proof. reflexivity. Qed.

(** * The claims *)

(** C1 (the source departs from the claim): the claim says that an indexed
    value whose index equals the length of the table takes the fail-fast
    path when it is resolved without brightening.  The first guard of
    [GetColor] compares with [<], so a table of exactly [_index] entries
    passes it and [colorTable[_index]] is read one entry past the end; no
    guard fires. *)
Theorem GetColor_index_at_size_reads_past_end
    (this : TextColor) (colorTable : list COLORREF) (defaultColor : COLORREF) :
  reachable this -> IsLegacy this = true ->
  size colorTable = _index this ->
  GetColor this colorTable defaultColor false = ReadPastEnd (_index this)
  /\ forall g, GetColor this colorTable defaultColor false <> FailFast g.
Proof.
  intros Hreach Hleg Hsize.
  pose proof (well_formed_index _ (reachable_well_formed _ Hreach)) as Hbyte.
  assert (GetColor this colorTable defaultColor false
          = ReadPastEnd (_index this)) as Hget.
  { rewrite GetColor_indexed_plain by (assumption || reflexivity).
    rewrite Hsize, Z.ltb_irrefl.
    apply at_outside; unfold is_BYTE in Hbyte; lia. }
  split; [exact Hget | ].
  intros g. rewrite Hget. discriminate.
Qed.

Lemma GetColor_index_at_size_reads_past_end_witness :
  reachable (SetIndex TextColor_default 16)
  /\ IsLegacy (SetIndex TextColor_default 16) = true
  /\ size table16 = _index (SetIndex TextColor_default 16)
  /\ GetColor (SetIndex TextColor_default 16) table16 0 false = ReadPastEnd 16.
Proof.
  assert (reachable (SetIndex TextColor_default 16)) as Hreach.
  { apply reach_SetIndex; [apply reach_default | unfold is_BYTE; lia]. }
  split; [exact Hreach | ].
  split; [reflexivity | ].
  split; [reflexivity | ].
  apply (proj1 (GetColor_index_at_size_reads_past_end
                  (SetIndex TextColor_default 16) table16 0 Hreach
                  eq_refl eq_refl)).
Defined.

(** C2: for an index [i] in [0,7] and a table of at least sixteen entries,
    after [SetIndex i] the value resolves to entry [i + 8] of the table
    with brightening and to entry [i] without it. *)
Theorem GetColor_dark_index
    (this : TextColor) (i : BYTE) (colorTable : list COLORREF)
    (defaultColor : COLORREF) :
  0 <= i <= 7 -> 16 <= size colorTable ->
  (exists c, nth_error colorTable (Z.to_nat (i + 8)) = Some c
     /\ GetColor (SetIndex this i) colorTable defaultColor true = Returned c)
  /\ (exists c, nth_error colorTable (Z.to_nat i) = Some c
     /\ GetColor (SetIndex this i) colorTable defaultColor false = Returned c).
Proof.
  intros Hi Hsize. split.
  - destruct (at_inside colorTable (i + 8)) as [c [Hnth Hat]]; try lia.
    exists c. split; [exact Hnth | ].
    rewrite GetColor_indexed_bright
      by (rewrite ?index_SetIndex; (reflexivity || lia)).
    rewrite index_SetIndex.
    replace (size colorTable <? i) with false
      by (symmetry; apply Z.ltb_ge; lia).
    replace (size colorTable <? 16) with false
      by (symmetry; apply Z.ltb_ge; lia).
    exact Hat.
  - destruct (at_inside colorTable i) as [c [Hnth Hat]]; try lia.
    exists c. split; [exact Hnth | ].
    rewrite GetColor_indexed_plain
      by (rewrite ?index_SetIndex; unfold is_BYTE; (reflexivity || lia)).
    rewrite index_SetIndex.
    replace (size colorTable <? i) with false
      by (symmetry; apply Z.ltb_ge; lia).
    exact Hat.
Qed.

Lemma GetColor_dark_index_witness :
  (0 <= 3 <= 7) /\ 16 <= size table16
  /\ GetColor (SetIndex TextColor_default 3) table16 0 true = Returned 65535
  /\ GetColor (SetIndex TextColor_default 3) table16 0 false = Returned 32896.
Proof.
  assert (0 <= 3 <= 7) as Hi by lia.
  assert (16 <= size table16) as Hsize by (vm_compute; discriminate).
  destruct (GetColor_dark_index TextColor_default 3 table16 0 Hi Hsize)
    as [[c1 [Hn1 Hg1]] [c2 [Hn2 Hg2]]].
  split; [exact Hi | ].
  split; [exact Hsize | ].
  split.
  - rewrite Hg1. f_equal.
    change (nth_error table16 (Z.to_nat (3 + 8))) with (Some 65535) in Hn1.
    now injection Hn1.
  - rewrite Hg2. f_equal.
    change (nth_error table16 (Z.to_nat 3)) with (Some 32896) in Hn2.
    now injection Hn2.
Defined.

(** C3: for a colour [C] of eight bits per channel, [SetColor C] followed by
    [GetColor] gives back exactly [C], whatever the table, the default
    colour and the brighten flag. *)
Theorem GetColor_SetColor_roundtrip
    (this : TextColor) (C : COLORREF) (colorTable : list COLORREF)
    (defaultColor : COLORREF) (brighten : bool) :
  is_rgb24 C ->
  GetColor (SetColor this C) colorTable defaultColor brighten = Returned C.
Proof.
  intros HC. unfold GetColor.
  destruct (IsRgb_SetColor this C) as [Hd Hr]. rewrite Hd, Hr.
  f_equal. unfold _GetRGB. cbn [SetColor set_meta set_red set_green set_blue
    _red _green _blue _meta].
  now apply RGB_of_components.
Qed.

Lemma GetColor_SetColor_roundtrip_witness :
  is_rgb24 1193046
  /\ GetColor (SetColor (SetIndex TextColor_default 7) 1193046) [] 255 true
     = Returned 1193046.
Proof.
  assert (is_rgb24 1193046) as HC by (unfold is_rgb24; lia).
  split; [exact HC | ].
  exact (GetColor_SetColor_roundtrip
           (SetIndex TextColor_default 7) 1193046 [] 255 true HC).
Defined.

(** C4: for an index [i] in [8,255] and a table longer than [i], after
    [SetIndex i] the value resolves to entry [i] of the table with and
    without brightening: the flag does nothing outside the dark range. *)
Theorem GetColor_bright_index_ignores_brighten
    (this : TextColor) (i : BYTE) (colorTable : list COLORREF)
    (defaultColor : COLORREF) :
  8 <= i <= 255 -> i < size colorTable ->
  exists c, nth_error colorTable (Z.to_nat i) = Some c
    /\ GetColor (SetIndex this i) colorTable defaultColor true = Returned c
    /\ GetColor (SetIndex this i) colorTable defaultColor false = Returned c.
Proof.
  intros Hi Hsize.
  destruct (at_inside colorTable i) as [c [Hnth Hat]]; try lia.
  exists c. split; [exact Hnth | ].
  assert (forall brighten,
            GetColor (SetIndex this i) colorTable defaultColor brighten
            = Returned c) as Hany.
  { intros brighten. rewrite GetColor_indexed_plain.
    - rewrite index_SetIndex.
      replace (size colorTable <? i) with false
        by (symmetry; apply Z.ltb_ge; lia).
      exact Hat.
    - apply IsLegacy_SetIndex.
    - rewrite index_SetIndex. unfold is_BYTE. lia.
    - rewrite index_SetIndex.
      replace (i <? 8) with false by (symmetry; apply Z.ltb_ge; lia).
      apply andb_false_r. }
  split; apply Hany.
Qed.

Lemma GetColor_bright_index_ignores_brighten_witness :
  (8 <= 200 <= 255) /\ 200 < size table256
  /\ GetColor (SetIndex TextColor_default 200) table256 0 true = Returned 200
  /\ GetColor (SetIndex TextColor_default 200) table256 0 false = Returned 200.
Proof.
  assert (8 <= 200 <= 255) as Hi by lia.
  assert (200 < size table256) as Hsize by (vm_compute; reflexivity).
  destruct (GetColor_bright_index_ignores_brighten
              TextColor_default 200 table256 0 Hi Hsize)
    as [c [Hnth [Htrue Hfalse]]].
  assert (c = 200) as Hc.
  { assert (nth_error table256 (Z.to_nat 200) = Some 200) as Hexp
      by (vm_compute; reflexivity).
    rewrite Hexp in Hnth. now injection Hnth. }
  rewrite Hc in Htrue, Hfalse.
  split; [exact Hi | ].
  split; [exact Hsize | ].
  split; [exact Htrue | exact Hfalse].
Defined.

(** C5: after [SetDefault], [GetColor] returns the default colour it is
    given, whatever the table holds, however long it is, and whatever the
    brighten flag. *)
Theorem GetColor_SetDefault
    (this : TextColor) (colorTable : list COLORREF)
    (defaultColor : COLORREF) (brighten : bool) :
  GetColor (SetDefault this) colorTable defaultColor brighten
  = Returned defaultColor.
Proof.
  unfold GetColor. now rewrite IsDefault_SetDefault.
Qed.

(** C6: for an indexed value with index [i] in [0,8), resolved with
    brightening, the call takes a fail-fast path whenever the table has
    fewer than 16 entries or fewer than [i + 8]; otherwise it returns
    entry [i + 8] of the table. *)
Theorem GetColor_brighten_dark
    (this : TextColor) (colorTable : list COLORREF) (defaultColor : COLORREF) :
  IsLegacy this = true -> 0 <= _index this < 8 ->
  (size colorTable < 16 \/ size colorTable < _index this + 8 ->
   exists g, GetColor this colorTable defaultColor true = FailFast g)
  /\ (~ (size colorTable < 16 \/ size colorTable < _index this + 8) ->
      exists c, nth_error colorTable (Z.to_nat (_index this + 8)) = Some c
        /\ GetColor this colorTable defaultColor true = Returned c).
Proof.
  intros Hleg Hidx.
  rewrite GetColor_indexed_bright by assumption.
  split.
  - intros Hshort.
    destruct (Z.ltb_spec (size colorTable) (_index this)) as [H1 | H1].
    + now exists TableShorterThanIndex.
    + destruct (Z.ltb_spec (size colorTable) 16) as [H2 | H2].
      * now exists TableShorterThan16.
      * lia.
  - intros Hlong.
    destruct (at_inside colorTable (_index this + 8)) as [c [Hnth Hat]];
      try lia.
    exists c. split; [exact Hnth | ].
    replace (size colorTable <? _index this) with false
      by (symmetry; apply Z.ltb_ge; lia).
    replace (size colorTable <? 16) with false
      by (symmetry; apply Z.ltb_ge; lia).
    exact Hat.
Qed.

Lemma GetColor_brighten_dark_witness :
  IsLegacy (SetIndex TextColor_default 3) = true
  /\ (0 <= _index (SetIndex TextColor_default 3) < 8)
  /\ (exists g, GetColor (SetIndex TextColor_default 3) [0; 128] 0 true
                = FailFast g)
  /\ (exists c, GetColor (SetIndex TextColor_default 3) table16 0 true
                = Returned c).
Proof.
  assert (IsLegacy (SetIndex TextColor_default 3) = true) as Hleg
    by reflexivity.
  assert (0 <= _index (SetIndex TextColor_default 3) < 8) as Hidx
    by (cbn; lia).
  split; [exact Hleg | ].
  split; [exact Hidx | ].
  split.
  - apply (proj1 (GetColor_brighten_dark
                    (SetIndex TextColor_default 3) [0; 128] 0 Hleg Hidx)).
    left. cbn. lia.
  - destruct (proj2 (GetColor_brighten_dark
                       (SetIndex TextColor_default 3) table16 0 Hleg Hidx))
      as [c [_ Hget]].
    + cbn. lia.
    + now exists c.
Defined.

(** C7: in every reachable value, [IsLegacy] holds exactly when [IsDefault]
    and [IsRgb] both fail; so exactly one of the three readings applies,
    and which one is decided by the tag alone. *)
Theorem IsLegacy_iff_neither (this : TextColor) :
  reachable this ->
  (IsLegacy this = true <-> IsDefault this = false /\ IsRgb this = false)
  /\ ((IsDefault this = true /\ IsRgb this = false /\ IsLegacy this = false
       /\ _meta this = static_cast_BYTE ColorType.IsDefault)
      \/ (IsDefault this = false /\ IsRgb this = true /\ IsLegacy this = false
          /\ _meta this = static_cast_BYTE ColorType.IsRgb)
      \/ (IsDefault this = false /\ IsRgb this = false /\ IsLegacy this = true
          /\ _meta this = static_cast_BYTE ColorType.IsIndex)).
Proof.
  intros Hreach. split.
  - unfold IsLegacy. rewrite negb_true_iff. apply orb_false_iff.
  - destruct (reachable_well_formed _ Hreach) as [[H | [H | H]] _];
      unfold IsLegacy, IsDefault, IsRgb; rewrite H; cbn; intuition.
Qed.

Lemma IsLegacy_iff_neither_witness :
  reachable (SetIndex (SetColor TextColor_default 255) 9)
  /\ IsLegacy (SetIndex (SetColor TextColor_default 255) 9) = true
  /\ IsDefault (SetIndex (SetColor TextColor_default 255) 9) = false
  /\ IsRgb (SetIndex (SetColor TextColor_default 255) 9) = false.
Proof.
  assert (reachable (SetIndex (SetColor TextColor_default 255) 9)) as Hreach.
  { apply reach_SetIndex; [ | unfold is_BYTE; lia].
    apply reach_SetColor; [apply reach_default | lia]. }
  split; [exact Hreach | ].
  split; [reflexivity | ].
  apply (proj1 (proj1 (IsLegacy_iff_neither _ Hreach))).
  reflexivity.
Defined.

(** C8: [SetIndex] takes every byte value, always yields a value, sets the
    tag to the index tag and stores the given index unchanged as the index
    byte; the other two payload bytes keep their contents. *)
Theorem SetIndex_stores_index (this : TextColor) (index : BYTE) :
  is_BYTE index ->
  _meta (SetIndex this index) = static_cast_BYTE ColorType.IsIndex
  /\ IsLegacy (SetIndex this index) = true
  /\ _index (SetIndex this index) = index
  /\ _green (SetIndex this index) = _green this
  /\ _blue (SetIndex this index) = _blue this.
Proof.
  intros _. repeat split.
Qed.

Lemma SetIndex_stores_index_witness :
  is_BYTE 255
  /\ _meta (SetIndex TextColor_default 255) = static_cast_BYTE ColorType.IsIndex
  /\ _index (SetIndex TextColor_default 255) = 255.
Proof.
  assert (is_BYTE 255) as Hb by (unfold is_BYTE; lia).
  pose proof (SetIndex_stores_index TextColor_default 255 Hb)
    as [Hmeta [_ [Hidx _]]].
  split; [exact Hb | ].
  split; [exact Hmeta | exact Hidx].
Defined.

(** C9: [SetDefault] sets the tag to the default tag and leaves the three
    payload bytes (red, which is also the index, green and blue) as they
    were, from any prior value; it always yields a value. *)
Theorem SetDefault_changes_only_tag (this : TextColor) :
  _meta (SetDefault this) = static_cast_BYTE ColorType.IsDefault
  /\ _red (SetDefault this) = _red this
  /\ _index (SetDefault this) = _index this
  /\ _green (SetDefault this) = _green this
  /\ _blue (SetDefault this) = _blue this.
Proof. repeat split. Qed.

(** C10: in the brighten branch of [GetColor] (index below 8), once the
    table is known to hold at least sixteen entries, the guard that
    compares [_index + 8] with the size of the table is false; hence no
    call of [GetColor] ever ends in that guard. *)
Theorem bright_guard_unreachable
    (this : TextColor) (colorTable : list COLORREF)
    (defaultColor : COLORREF) (brighten : bool) :
  is_BYTE (_index this) ->
  (_index this < 8 -> 16 <= size colorTable ->
   (to_size_t (_index this + 8) >? size colorTable) = false)
  /\ GetColor this colorTable defaultColor brighten
     <> FailFast BrightPastTable.
Proof.
  intros Hbyte.
  assert (_index this < 8 -> 16 <= size colorTable ->
          (to_size_t (_index this + 8) >? size colorTable) = false) as Hguard.
  { intros Hlt Hsize. rewrite (to_size_t_BYTE_plus_8 _ Hbyte).
    rewrite Z.gtb_ltb. apply Z.ltb_ge. lia. }
  split; [exact Hguard | ].
  unfold GetColor.
  destruct (IsDefault this); [discriminate | ].
  destruct (IsRgb this); [discriminate | ].
  unfold FAIL_FAST_IF, bind.
  destruct (size colorTable <? to_size_t (_index this)); [discriminate | ].
  destruct brighten; cbn [andb]; [ | apply at_never_fails_fast].
  destruct (Z.ltb_spec (_index this) 8) as [Hlt | Hge];
    [ | apply at_never_fails_fast].
  destruct (Z.ltb_spec (size colorTable) 16) as [H16 | H16];
    [discriminate | ].
  rewrite (Hguard Hlt H16). apply at_never_fails_fast.
Qed.

Lemma bright_guard_unreachable_witness :
  is_BYTE (_index (SetIndex TextColor_default 7))
  /\ (to_size_t (_index (SetIndex TextColor_default 7) + 8) >? size table16)
     = false
  /\ GetColor (SetIndex TextColor_default 7) table16 0 true
     <> FailFast BrightPastTable.
Proof.
  assert (is_BYTE (_index (SetIndex TextColor_default 7))) as Hb
    by (unfold is_BYTE; cbn; lia).
  pose proof (bright_guard_unreachable
                (SetIndex TextColor_default 7) table16 0 true Hb)
    as [Hguard Hget].
  split; [exact Hb | ].
  split; [ | exact Hget].
  apply Hguard; cbn; lia.
Defined.

(** * Further properties of the code *)

(** ** Packing and unpacking, for every argument *)

Lemma to_BYTE_of_BYTE (b : Z) : is_BYTE b -> to_BYTE b = b.
Proof.
  unfold is_BYTE. intros H. rewrite to_BYTE_ones, Z.land_ones by lia.
  apply Z.mod_small. lia.
Qed.

(** Unpacking keeps the low 24 bits of a colour, whatever lies above. *)
Lemma RGB_of_components_low24 (c : COLORREF) :
  RGB (GetRValue c) (GetGValue c) (GetBValue c) = c mod 2 ^ 24.
Proof.
  rewrite <- Z.land_ones by lia.
  unfold RGB, GetRValue, GetGValue, GetBValue, LOBYTE.
  rewrite !to_DWORD_ones, !to_WORD_ones, !to_BYTE_ones.
  apply Z.bits_inj'. intros n Hn.
  destruct (Z.ltb_spec n 8) as [H8 | H8];
    [ | destruct (Z.ltb_spec n 16) as [H16 | H16];
        [ | destruct (Z.ltb_spec n 24) as [H24 | H24] ] ];
    eval_bits; destruct (Z.testbit c n); reflexivity.
Qed.

Lemma RGB_below_2_24 (r g b : Z) : 0 <= RGB r g b < 2 ^ 24.
Proof.
  assert (RGB r g b = RGB r g b mod 2 ^ 24) as Hmod.
  { rewrite <- Z.land_ones by lia. unfold RGB.
    rewrite !to_DWORD_ones, !to_WORD_ones, !to_BYTE_ones.
    apply Z.bits_inj'. intros n Hn.
    destruct (Z.ltb_spec n 8) as [H8 | H8];
      [ | destruct (Z.ltb_spec n 16) as [H16 | H16];
          [ | destruct (Z.ltb_spec n 24) as [H24 | H24] ] ];
      eval_bits;
      rewrite ?andb_true_r, ?andb_false_r, ?orb_false_r, ?orb_false_l;
      reflexivity. }
  rewrite Hmod. apply Z.mod_pos_bound. lia.
Qed.

Lemma GetRValue_RGB (r g b : Z) : GetRValue (RGB r g b) = to_BYTE r.
Proof.
  unfold RGB, GetRValue, LOBYTE.
  rewrite !to_DWORD_ones, !to_WORD_ones, !to_BYTE_ones.
  apply Z.bits_inj'. intros n Hn.
  destruct (Z.ltb_spec n 8) as [H8 | H8]; eval_bits;
    rewrite ?andb_true_r, ?andb_false_r, ?orb_false_r, ?orb_false_l;
    reflexivity.
Qed.

Lemma GetGValue_RGB (r g b : Z) : GetGValue (RGB r g b) = to_BYTE g.
Proof.
  unfold RGB, GetGValue, LOBYTE.
  rewrite !to_DWORD_ones, !to_WORD_ones, !to_BYTE_ones.
  apply Z.bits_inj'. intros n Hn.
  destruct (Z.ltb_spec n 8) as [H8 | H8]; eval_bits;
    rewrite ?Z.add_simpl_r;
    rewrite ?andb_true_r, ?andb_false_r, ?orb_false_r, ?orb_false_l;
    reflexivity.
Qed.

Lemma GetBValue_RGB (r g b : Z) : GetBValue (RGB r g b) = to_BYTE b.
Proof.
  unfold RGB, GetBValue, LOBYTE.
  rewrite !to_DWORD_ones, !to_WORD_ones, !to_BYTE_ones.
  apply Z.bits_inj'. intros n Hn.
  destruct (Z.ltb_spec n 8) as [H8 | H8]; eval_bits;
    rewrite ?Z.add_simpl_r;
    rewrite ?andb_true_r, ?andb_false_r, ?orb_false_r, ?orb_false_l;
    reflexivity.
Qed.

(** ** What a call of [GetColor] can end in *)

Lemma GetColor_not_legacy (this : TextColor) (colorTable : list COLORREF)
    (defaultColor : COLORREF) (brighten : bool) :
  IsLegacy this = false ->
  GetColor this colorTable defaultColor brighten
  = Returned (if IsDefault this then defaultColor else _GetRGB this).
Proof.
  unfold IsLegacy, GetColor. intros H. apply negb_false_iff in H.
  destruct (IsDefault this); [reflexivity | ].
  cbn [orb] in H. now rewrite H.
Qed.

(** X1: [SetColor] followed by [GetColor] keeps the low 24 bits of the
    colour and drops whatever the COLORREF holds above them, for every
    argument; the table, the default colour and the flag play no part. *)
Theorem GetColor_SetColor_low24
    (this : TextColor) (C : COLORREF) (colorTable : list COLORREF)
    (defaultColor : COLORREF) (brighten : bool) :
  GetColor (SetColor this C) colorTable defaultColor brighten
  = Returned (C mod 2 ^ 24).
Proof.
  unfold GetColor.
  destruct (IsRgb_SetColor this C) as [Hd Hr]. rewrite Hd, Hr.
  f_equal. unfold _GetRGB.
  cbn [SetColor set_meta set_red set_green set_blue _red _green _blue _meta].
  apply RGB_of_components_low24.
Qed.

(** X2: for a value in the RGB state whose payload bytes are bytes, storing
    the colour that [_GetRGB] packs gives the same value again: packing and
    unpacking lose nothing of the three components. *)
Theorem SetColor_GetRGB_restores (this : TextColor) :
  IsRgb this = true ->
  is_BYTE (_red this) -> is_BYTE (_green this) -> is_BYTE (_blue this) ->
  SetColor this (_GetRGB this) = this.
Proof.
  intros Hrgb Hr Hg Hb. unfold IsRgb in Hrgb. apply Z.eqb_eq in Hrgb.
  destruct this as [m r g b]. cbn in *. subst m.
  unfold SetColor, _GetRGB, set_meta, set_red, set_green, set_blue. cbn.
  rewrite GetRValue_RGB, GetGValue_RGB, GetBValue_RGB.
  now rewrite !to_BYTE_of_BYTE by assumption.
Qed.

Lemma SetColor_GetRGB_restores_witness :
  IsRgb (mkTextColor 2 18 52 86) = true
  /\ SetColor (mkTextColor 2 18 52 86) (_GetRGB (mkTextColor 2 18 52 86))
     = mkTextColor 2 18 52 86.
Proof.
  split; [reflexivity | ].
  apply (SetColor_GetRGB_restores (mkTextColor 2 18 52 86));
    [reflexivity | unfold is_BYTE; cbn; lia ..].
Defined.

(** X3: the colour packed by [_GetRGB] never has a bit above the three
    channels, whatever the payload holds; so a value that is neither
    default nor indexed always resolves to a colour below 2^24. *)
Theorem GetColor_rgb_below_2_24
    (this : TextColor) (colorTable : list COLORREF)
    (defaultColor : COLORREF) (brighten : bool) :
  IsRgb this = true ->
  0 <= _GetRGB this < 2 ^ 24
  /\ GetColor this colorTable defaultColor brighten = Returned (_GetRGB this).
Proof.
  intros Hrgb. split; [apply RGB_below_2_24 | ].
  unfold GetColor. rewrite Hrgb.
  unfold IsRgb in Hrgb. apply Z.eqb_eq in Hrgb.
  unfold IsDefault. rewrite Hrgb. reflexivity.
Qed.

Lemma GetColor_rgb_below_2_24_witness :
  IsRgb (SetColor TextColor_default 4294967295) = true
  /\ GetColor (SetColor TextColor_default 4294967295) [] 0 true
     = Returned (_GetRGB (SetColor TextColor_default 4294967295))
  /\ _GetRGB (SetColor TextColor_default 4294967295) < 2 ^ 24.
Proof.
  pose proof (GetColor_rgb_below_2_24
                (SetColor TextColor_default 4294967295) [] 0 true eq_refl)
    as [Hrange Hget].
  split; [reflexivity | ].
  split; [exact Hget | apply Hrange].
Defined.

(** X4: a table shorter than the stored index ends the call in the first
    guard, with and without brightening. *)
Theorem GetColor_table_shorter_than_index
    (this : TextColor) (colorTable : list COLORREF)
    (defaultColor : COLORREF) (brighten : bool) :
  IsLegacy this = true -> is_BYTE (_index this) ->
  size colorTable < _index this ->
  GetColor this colorTable defaultColor brighten
  = FailFast TableShorterThanIndex.
Proof.
  intros Hleg Hbyte Hshort. apply IsLegacy_inv in Hleg as [Hd Hr].
  unfold GetColor. rewrite Hd, Hr, (to_size_t_BYTE _ Hbyte).
  replace (size colorTable <? _index this) with true
    by (symmetry; apply Z.ltb_lt; lia).
  reflexivity.
Qed.

Lemma GetColor_table_shorter_than_index_witness :
  IsLegacy (SetIndex TextColor_default 200) = true
  /\ is_BYTE (_index (SetIndex TextColor_default 200))
  /\ size table16 < _index (SetIndex TextColor_default 200)
  /\ GetColor (SetIndex TextColor_default 200) table16 0 true
     = FailFast TableShorterThanIndex.
Proof.
  assert (is_BYTE (_index (SetIndex TextColor_default 200))) as Hb
    by (unfold is_BYTE; cbn; lia).
  assert (size table16 < _index (SetIndex TextColor_default 200)) as Hs
    by (cbn; lia).
  split; [reflexivity | ].
  split; [exact Hb | ].
  split; [exact Hs | ].
  exact (GetColor_table_shorter_than_index
           (SetIndex TextColor_default 200) table16 0 true eq_refl Hb Hs).
Defined.

(** X5: [GetColor] reads past the end of the table in one situation only:
    the value is indexed, the table has exactly as many entries as the
    index says, and the brighten branch is not taken (the flag is off or
    the index is 8 or more). *)
Theorem GetColor_reads_past_end_iff
    (this : TextColor) (colorTable : list COLORREF)
    (defaultColor : COLORREF) (brighten : bool) :
  is_BYTE (_index this) ->
  (exists pos, GetColor this colorTable defaultColor brighten = ReadPastEnd pos)
  <-> (IsLegacy this = true /\ size colorTable = _index this
       /\ brighten && (_index this <? 8) = false).
Proof.
  intros Hbyte. pose proof Hbyte as Hrange. unfold is_BYTE in Hrange. split.
  - intros [pos Hget].
    destruct (IsLegacy this) eqn:Hleg;
      [ | rewrite GetColor_not_legacy in Hget by assumption; discriminate ].
    destruct (brighten && (_index this <? 8)) eqn:Hbr.
    + apply andb_true_iff in Hbr as [Hb Hlt]. subst brighten.
      apply Z.ltb_lt in Hlt.
      rewrite GetColor_indexed_bright in Hget by (assumption || lia).
      destruct (size colorTable <? _index this); [discriminate | ].
      destruct (Z.ltb_spec (size colorTable) 16) as [H16 | H16];
        [discriminate | ].
      destruct (at_inside colorTable (_index this + 8)) as [c [_ Hat]];
        try lia.
      rewrite Hat in Hget. discriminate.
    + rewrite GetColor_indexed_plain in Hget by assumption.
      destruct (Z.ltb_spec (size colorTable) (_index this)) as [H1 | H1];
        [discriminate | ].
      destruct (Z.eq_dec (size colorTable) (_index this)) as [Heq | Hne];
        [now repeat split | ].
      destruct (at_inside colorTable (_index this)) as [c [_ Hat]]; try lia.
      rewrite Hat in Hget. discriminate.
  - intros [Hleg [Hsize Hbr]]. exists (_index this).
    rewrite GetColor_indexed_plain by assumption.
    rewrite Hsize, Z.ltb_irrefl. apply at_outside; lia.
Qed.

Lemma GetColor_reads_past_end_iff_witness :
  is_BYTE (_index (SetIndex TextColor_default 16))
  /\ exists pos,
       GetColor (SetIndex TextColor_default 16) table16 0 true
       = ReadPastEnd pos.
Proof.
  assert (is_BYTE (_index (SetIndex TextColor_default 16))) as Hb
    by (unfold is_BYTE; cbn; lia).
  split; [exact Hb | ].
  apply (proj2 (GetColor_reads_past_end_iff
                  (SetIndex TextColor_default 16) table16 0 true Hb)).
  repeat split.
Defined.

(** X6: an indexed value resolves to a colour exactly when the table is
    long enough for the entry that is read: at least sixteen entries in
    the brighten branch, more than the index otherwise. *)
Theorem GetColor_indexed_returns_iff
    (this : TextColor) (colorTable : list COLORREF)
    (defaultColor : COLORREF) (brighten : bool) :
  IsLegacy this = true -> is_BYTE (_index this) ->
  (exists c, GetColor this colorTable defaultColor brighten = Returned c)
  <-> (if brighten && (_index this <? 8)
       then 16 <= size colorTable
       else _index this < size colorTable).
Proof.
  intros Hleg Hbyte. pose proof Hbyte as Hrange. unfold is_BYTE in Hrange.
  destruct (brighten && (_index this <? 8)) eqn:Hbr.
  - apply andb_true_iff in Hbr as [Hb Hlt]. subst brighten.
    apply Z.ltb_lt in Hlt.
    rewrite GetColor_indexed_bright by (assumption || lia).
    destruct (Z.ltb_spec (size colorTable) (_index this)) as [H1 | H1].
    + split; [intros [c Hc]; discriminate | lia].
    + destruct (Z.ltb_spec (size colorTable) 16) as [H16 | H16].
      * split; [intros [c Hc]; discriminate | lia].
      * split; [intros _; exact H16 | intros _].
        destruct (at_inside colorTable (_index this + 8)) as [c [_ Hat]];
          try lia.
        now exists c.
  - rewrite GetColor_indexed_plain by assumption.
    destruct (Z.ltb_spec (size colorTable) (_index this)) as [H1 | H1].
    + split; [intros [c Hc]; discriminate | lia].
    + split.
      * intros [c Hc].
        destruct (Z.eq_dec (size colorTable) (_index this)) as [Heq | Hne];
          [ | lia].
        rewrite at_outside in Hc by lia. discriminate.
      * intros Hlt.
        destruct (at_inside colorTable (_index this)) as [c [_ Hat]];
          try lia.
        now exists c.
Qed.

Lemma GetColor_indexed_returns_iff_witness :
  IsLegacy (SetIndex TextColor_default 5) = true
  /\ is_BYTE (_index (SetIndex TextColor_default 5))
  /\ ~ (exists c, GetColor (SetIndex TextColor_default 5)
                    [1; 2; 3; 4; 5; 6; 7; 8] 0 true = Returned c).
Proof.
  assert (is_BYTE (_index (SetIndex TextColor_default 5))) as Hb
    by (unfold is_BYTE; cbn; lia).
  split; [reflexivity | ].
  split; [exact Hb | ].
  intros Hret.
  apply (proj1 (GetColor_indexed_returns_iff
                  (SetIndex TextColor_default 5) [1; 2; 3; 4; 5; 6; 7; 8]
                  0 true eq_refl Hb)) in Hret.
  cbn in Hret. lia.
Defined.

(** X7: brightening can fail where the plain call succeeds: for a dark
    index [i] and a table with more than [i] but fewer than sixteen
    entries, the call without the flag returns entry [i] and the call with
    the flag ends in the second guard. *)
Theorem GetColor_brighten_fails_on_short_table
    (this : TextColor) (colorTable : list COLORREF) (defaultColor : COLORREF) :
  IsLegacy this = true -> 0 <= _index this < 8 ->
  _index this < size colorTable < 16 ->
  GetColor this colorTable defaultColor true = FailFast TableShorterThan16
  /\ exists c, nth_error colorTable (Z.to_nat (_index this)) = Some c
       /\ GetColor this colorTable defaultColor false = Returned c.
Proof.
  intros Hleg Hidx Hsize. split.
  - rewrite GetColor_indexed_bright by assumption.
    replace (size colorTable <? _index this) with false
      by (symmetry; apply Z.ltb_ge; lia).
    replace (size colorTable <? 16) with true
      by (symmetry; apply Z.ltb_lt; lia).
    reflexivity.
  - destruct (at_inside colorTable (_index this)) as [c [Hnth Hat]]; try lia.
    exists c. split; [exact Hnth | ].
    rewrite GetColor_indexed_plain
      by (unfold is_BYTE; (assumption || reflexivity || lia)).
    replace (size colorTable <? _index this) with false
      by (symmetry; apply Z.ltb_ge; lia).
    exact Hat.
Qed.

Lemma GetColor_brighten_fails_on_short_table_witness :
  IsLegacy (SetIndex TextColor_default 2) = true
  /\ (0 <= _index (SetIndex TextColor_default 2) < 8)
  /\ (_index (SetIndex TextColor_default 2) < size [10; 20; 30; 40] < 16)
  /\ GetColor (SetIndex TextColor_default 2) [10; 20; 30; 40] 0 true
     = FailFast TableShorterThan16.
Proof.
  assert (0 <= _index (SetIndex TextColor_default 2) < 8) as Hidx
    by (cbn; lia).
  assert (_index (SetIndex TextColor_default 2) < size [10; 20; 30; 40] < 16)
    as Hsize by (cbn; lia).
  split; [reflexivity | ].
  split; [exact Hidx | ].
  split; [exact Hsize | ].
  exact (proj1 (GetColor_brighten_fails_on_short_table
                  (SetIndex TextColor_default 2) [10; 20; 30; 40] 0
                  eq_refl Hidx Hsize)).
Defined.

(** X8: on a table of at least sixteen entries, resolving a dark index
    [i] with brightening gives what resolving the index [i + 8] gives,
    with or without the flag. *)
Theorem GetColor_brighten_is_index_plus_8
    (this this' : TextColor) (i : BYTE) (colorTable : list COLORREF)
    (defaultColor defaultColor' : COLORREF) (brighten : bool) :
  0 <= i <= 7 -> 16 <= size colorTable ->
  GetColor (SetIndex this i) colorTable defaultColor true
  = GetColor (SetIndex this' (i + 8)) colorTable defaultColor' brighten.
Proof.
  intros Hi Hsize.
  rewrite GetColor_indexed_bright
    by (rewrite ?index_SetIndex; (reflexivity || lia)).
  rewrite (GetColor_indexed_plain (SetIndex this' (i + 8))).
  - rewrite !index_SetIndex.
    replace (size colorTable <? i) with false
      by (symmetry; apply Z.ltb_ge; lia).
    replace (size colorTable <? 16) with false
      by (symmetry; apply Z.ltb_ge; lia).
    replace (size colorTable <? i + 8) with false
      by (symmetry; apply Z.ltb_ge; lia).
    reflexivity.
  - apply IsLegacy_SetIndex.
  - rewrite index_SetIndex. unfold is_BYTE. lia.
  - rewrite index_SetIndex.
    replace (i + 8 <? 8) with false by (symmetry; apply Z.ltb_ge; lia).
    apply andb_false_r.
Qed.

Lemma GetColor_brighten_is_index_plus_8_witness :
  (0 <= 4 <= 7) /\ 16 <= size table16
  /\ GetColor (SetIndex TextColor_default 4) table16 0 true
     = GetColor (SetIndex TextColor_default (4 + 8)) table16 0 false.
Proof.
  assert (0 <= 4 <= 7) as Hi by lia.
  assert (16 <= size table16) as Hsize by (cbn; lia).
  split; [exact Hi | ].
  split; [exact Hsize | ].
  exact (GetColor_brighten_is_index_plus_8
           TextColor_default TextColor_default 4 table16 0 0 false Hi Hsize).
Defined.

(** ** Dependence on the table *)

Lemma size_app (P Q : list COLORREF) : size (P ++ Q) = size P + size Q.
Proof. unfold size. rewrite length_app. lia. Qed.

Lemma at_Returned_inv (colorTable : list COLORREF) (pos : Z) (c : COLORREF) :
  at_ colorTable pos = Returned c ->
  nth_error colorTable (Z.to_nat (to_size_t pos)) = Some c.
Proof.
  unfold at_. destruct (nth_error colorTable _) as [c' | ];
    [ | discriminate ].
  intros H. now injection H as ->.
Qed.

Lemma at_app (P Q : list COLORREF) (pos : Z) (c : COLORREF) :
  at_ P pos = Returned c -> at_ (P ++ Q) pos = Returned c.
Proof.
  intros H. apply at_Returned_inv in H. unfold at_.
  rewrite nth_error_app1, H; [reflexivity | ].
  apply nth_error_Some. rewrite H. discriminate.
Qed.

(** X9: a colour that [GetColor] returns stays the same when entries are
    added at the end of the table: a value that resolves against a table
    resolves to the same colour against every extension of it. *)
Theorem GetColor_table_extension
    (this : TextColor) (colorTable more : list COLORREF)
    (defaultColor : COLORREF) (brighten : bool) (c : COLORREF) :
  GetColor this colorTable defaultColor brighten = Returned c ->
  GetColor this (colorTable ++ more) defaultColor brighten = Returned c.
Proof.
  unfold GetColor.
  destruct (IsDefault this); [trivial | ].
  destruct (IsRgb this); [trivial | ].
  unfold FAIL_FAST_IF, bind. rewrite size_app.
  pose proof (size_nonneg more) as Hmore.
  destruct (Z.ltb_spec (size colorTable) (to_size_t (_index this)))
    as [H1 | H1]; [discriminate | ].
  replace (size colorTable + size more <? to_size_t (_index this))
    with false by (symmetry; apply Z.ltb_ge; lia).
  destruct (brighten && (_index this <? 8)); [ | apply at_app].
  destruct (Z.ltb_spec (size colorTable) 16) as [H2 | H2]; [discriminate | ].
  replace (size colorTable + size more <? 16)
    with false by (symmetry; apply Z.ltb_ge; lia).
  rewrite !Z.gtb_ltb.
  destruct (Z.ltb_spec (size colorTable) (to_size_t (_index this + 8)))
    as [H3 | H3]; [discriminate | ].
  replace (size colorTable + size more <? to_size_t (_index this + 8))
    with false by (symmetry; apply Z.ltb_ge; lia).
  apply at_app.
Qed.

Lemma GetColor_table_extension_witness :
  GetColor (SetIndex TextColor_default 3) table16 0 true = Returned 65535
  /\ GetColor (SetIndex TextColor_default 3) (table16 ++ [7; 7; 7]) 0 true
     = Returned 65535.
Proof.
  assert (GetColor (SetIndex TextColor_default 3) table16 0 true
          = Returned 65535) as Hget by reflexivity.
  split; [exact Hget | ].
  exact (GetColor_table_extension
           (SetIndex TextColor_default 3) table16 [7; 7; 7] 0 true 65535 Hget).
Defined.



(** X11: against an empty table an indexed value never resolves: a
    positive index ends in the first guard; index 0 ends in the second
    guard with brightening and reads past the end without it. *)
Theorem GetColor_empty_table
    (this : TextColor) (defaultColor : COLORREF) (brighten : bool) :
  IsLegacy this = true -> is_BYTE (_index this) ->
  GetColor this [] defaultColor brighten
  = if 0 <? _index this then FailFast TableShorterThanIndex
    else if brighten then FailFast TableShorterThan16
    else ReadPastEnd 0.
Proof.
  intros Hleg Hbyte. pose proof Hbyte as Hrange. unfold is_BYTE in Hrange.
  destruct (Z.ltb_spec 0 (_index this)) as [Hpos | Hzero].
  - pose proof Hleg as Hleg'. apply IsLegacy_inv in Hleg' as [Hd Hr].
    unfold GetColor. rewrite Hd, Hr, (to_size_t_BYTE _ Hbyte).
    replace (size [] <? _index this) with true
      by (symmetry; apply Z.ltb_lt; cbn; lia).
    reflexivity.
  - assert (_index this = 0) as H0 by lia.
    destruct brighten.
    + rewrite GetColor_indexed_bright by (assumption || lia).
      rewrite H0. reflexivity.
    + rewrite GetColor_indexed_plain by (assumption || reflexivity).
      rewrite H0. reflexivity.
Qed.

Lemma GetColor_empty_table_witness :
  IsLegacy (SetIndex TextColor_default 0) = true
  /\ is_BYTE (_index (SetIndex TextColor_default 0))
  /\ GetColor (SetIndex TextColor_default 0) [] 5 true
     = FailFast TableShorterThan16.
Proof.
  assert (is_BYTE (_index (SetIndex TextColor_default 0))) as Hb
    by (unfold is_BYTE; cbn; lia).
  split; [reflexivity | ].
  split; [exact Hb | ].
  exact (GetColor_empty_table (SetIndex TextColor_default 0) 5 true
           eq_refl Hb).
Defined.

(** ** What a resolution depends on *)

(** X12: the resolution of an indexed value depends on its index byte
    alone: two indexed values with the same index resolve alike, whatever
    stale green and blue bytes they carry and whatever default colour is
    passed. *)
Theorem GetColor_indexed_depends_on_index_only
    (this this' : TextColor) (colorTable : list COLORREF)
    (defaultColor defaultColor' : COLORREF) (brighten : bool) :
  IsLegacy this = true -> IsLegacy this' = true ->
  _index this = _index this' ->
  GetColor this colorTable defaultColor brighten
  = GetColor this' colorTable defaultColor' brighten.
Proof.
  intros Hleg Hleg' Hidx.
  apply IsLegacy_inv in Hleg as [Hd Hr].
  apply IsLegacy_inv in Hleg' as [Hd' Hr'].
  unfold GetColor. now rewrite Hd, Hr, Hd', Hr', Hidx.
Qed.

Lemma GetColor_indexed_depends_on_index_only_witness :
  IsLegacy (SetIndex (SetColor TextColor_default 16777215) 3) = true
  /\ IsLegacy (SetIndex TextColor_default 3) = true
  /\ GetColor (SetIndex (SetColor TextColor_default 16777215) 3) table16 1 true
     = GetColor (SetIndex TextColor_default 3) table16 2 true.
Proof.
  split; [reflexivity | ].
  split; [reflexivity | ].
  exact (GetColor_indexed_depends_on_index_only
           (SetIndex (SetColor TextColor_default 16777215) 3)
           (SetIndex TextColor_default 3) table16 1 2 true
           eq_refl eq_refl eq_refl).
Defined.

(** X13: a value that is default or RGB always resolves, and neither the
    table nor the brighten flag has any influence: no guard is evaluated
    and the table is not read, so even an empty table does. *)
Theorem GetColor_not_legacy_ignores_table
    (this : TextColor) (colorTable colorTable' : list COLORREF)
    (defaultColor : COLORREF) (brighten brighten' : bool) :
  IsLegacy this = false ->
  (exists c, GetColor this colorTable defaultColor brighten = Returned c)
  /\ GetColor this colorTable defaultColor brighten
     = GetColor this colorTable' defaultColor brighten'.
Proof.
  intros Hleg. rewrite !GetColor_not_legacy by assumption.
  split; [eexists; reflexivity | reflexivity].
Qed.

Lemma GetColor_not_legacy_ignores_table_witness :
  IsLegacy (SetColor TextColor_default 1193046) = false
  /\ GetColor (SetColor TextColor_default 1193046) table16 0 true
     = GetColor (SetColor TextColor_default 1193046) [] 0 false.
Proof.
  split; [reflexivity | ].
  exact (proj2 (GetColor_not_legacy_ignores_table
                  (SetColor TextColor_default 1193046) table16 [] 0 true false
                  eq_refl)).
Defined.
